(** * scraping_usage.ipynb: the notebook that configures and starts a scrape

    The notebook is a straight-line Python script spread over three code
    cells.  It is embedded as a computation in a small state-and-exception
    monad over the interpreter state (global namespace, object heap) that
    also records every name load, name store, attribute access, import and
    call the script performs.  The scraper facade of [timescrap.proxy_scraper]
    is not part of the notebook: its constructor body and its [scrape] method
    are parameters of the development. *)

From Stdlib Require Import ZArith Lia.
From stdpp Require Import base strings pretty list gmap.

Local Open Scope string_scope.
Local Open Scope list_scope.
Local Open Scope Z_scope.

#[local] Set Warnings "-register-all".

(** ** Values, objects and exceptions *)

Definition addr := nat.
Bind Scope nat_scope with addr.

Inductive builtin := BList | BRange.

Inductive class_name := CalendarRange | ScrapingParameters | TimeDotIrScraper.

Inductive value :=
| VNone
| VBool (b : bool)
| VInt (z : Z)
| VStr (s : string)
| VTuple (items : list value)
| VRange (start stop step : Z)
| VRef (a : addr)
| VBuiltin (b : builtin)
| VClass (c : class_name)
| VMethod (self : addr) (name : string).

(** Mutable objects live in the heap and are shared by reference. *)
Inductive obj :=
| OList (items : list value)
| OInst (cls : class_name) (fields : gmap string value).

Inductive exn :=
| NameError (name : string)
| ImportError (module name : string)
| AttributeError (attr : string)
| TypeError (msg : string)
| ValueError (msg : string)
| OverflowError (msg : string)
| Raised (what : string).

(** ** What the script does, in order *)

Inductive event :=
| EImport (module name : string)
| ELoad (name : string)
| EStore (name : string) (v : value)
| EGetAttr (v : value) (attr : string)
| ECall (callee : value) (args : list value) (kwargs : list (string * value)).

Record state := State {
  globals : gmap string value;
  heap : list obj;
  trace : list event
}.

Definition initial_state : state :=
  {| globals := ∅; heap := []; trace := [] |}.

(** ** The interpreter monad *)

Definition Py (A : Type) : Type := state → (exn + A) * state.

#[export] Instance Py_ret : MRet Py := λ A (x : A) st, (inr x, st).

#[export] Instance Py_bind : MBind Py := λ A B (f : A → Py B) (m : Py A) st,
  match m st with
  | (inl e, st') => (inl e, st')
  | (inr x, st') => f x st'
  end.

Definition raise {A} (e : exn) : Py A := λ st, (inl e, st).

Definition emit (ev : event) : Py unit := λ st,
  (inr (), {| globals := globals st; heap := heap st; trace := trace st ++ [ev] |}).

Definition get_global (n : string) : Py (option value) := λ st,
  (inr (globals st !! n), st).

Definition set_global (n : string) (v : value) : Py unit := λ st,
  (inr (), {| globals := <[n:=v]> (globals st); heap := heap st; trace := trace st |}).

Definition alloc (o : obj) : Py addr := λ st,
  (inr (List.length (heap st)),
   {| globals := globals st; heap := heap st ++ [o]; trace := trace st |}).

Definition deref (a : addr) : Py (option obj) := λ st, (inr (heap st !! a), st).

Definition lift {A} (r : exn + A) : Py A := λ st, (r, st).

(** Code outside the notebook sees and may change the heap only. *)
Definition Ext (A : Type) : Type := list obj → (exn + A) * list obj.

Definition extern {A} (c : Ext A) : Py A := λ st,
  let '(r, h) := c (heap st) in
  (r, {| globals := globals st; heap := h; trace := trace st |}).

Fixpoint eval_args (es : list (Py value)) : Py (list value) :=
  match es with
  | [] => mret []
  | e :: es' => v ← e; vs ← eval_args es'; mret (v :: vs)
  end.

Fixpoint eval_kwargs (kes : list (string * Py value)) : Py (list (string * value)) :=
  match kes with
  | [] => mret []
  | (k, e) :: kes' => v ← e; kvs ← eval_kwargs kes'; mret ((k, v) :: kvs)
  end.

(** ** Builtins used by the script *)

Definition builtins : gmap string value :=
  {[ "list" := VBuiltin BList; "range" := VBuiltin BRange ]}.

(** Number of elements of [range(start, stop, step)]. *)
Definition range_len (start stop step : Z) : Z :=
  if 0 <? step then
    if start <? stop then (stop - start - 1) / step + 1 else 0
  else if step <? 0 then
    if stop <? start then (start - stop - 1) / (- step) + 1 else 0
  else 0.

Definition range_items (start stop step : Z) : list value :=
  map (λ i : nat, VInt (start + Z.of_nat i * step))
      (seq 0 (Z.to_nat (range_len start stop step))).

(** The integer an argument of [range] stands for; [bool] is a subtype of
    [int]. *)
Definition as_index (v : value) : option Z :=
  match v with
  | VInt z => Some z
  | VBool b => Some (if b then 1 else 0)
  | _ => None
  end.

Definition call_range (args : list value) (kwargs : list (string * value)) : Py value :=
  match kwargs with
  | _ :: _ => raise (TypeError "range() takes no keyword arguments")
  | [] =>
    match as_index <$> args with
    | [Some stop] => mret (VRange 0 stop 1)
    | [Some start; Some stop] => mret (VRange start stop 1)
    | [Some start; Some stop; Some step] =>
        if step =? 0 then raise (ValueError "range() arg 3 must not be zero")
        else mret (VRange start stop step)
    | _ => raise (TypeError "range expected integer arguments")
    end
  end.

(** The largest length a list can have (64-bit [Py_ssize_t]). *)
Definition ssize_max : Z := 9223372036854775807.

(** [list(iterable)] always builds a new list object.  A range longer than
    [ssize_max] is an [OverflowError]; running out of memory below that
    bound depends on the machine and is not modelled.  A string yields its
    characters (strings are sequences of 8-bit characters here). *)
Definition call_list (args : list value) (kwargs : list (string * value)) : Py value :=
  match kwargs with
  | _ :: _ => raise (TypeError "list() takes no keyword arguments")
  | [] =>
    match args with
    | [] => a ← alloc (OList []); mret (VRef a)
    | [VRange start stop step] =>
        if range_len start stop step <=? ssize_max then
          a ← alloc (OList (range_items start stop step)); mret (VRef a)
        else raise (OverflowError "Python int too large to convert to C ssize_t")
    | [VStr s] =>
        a ← alloc (OList ((λ c, VStr (String c EmptyString)) <$> String.list_ascii_of_string s));
        mret (VRef a)
    | [VTuple items] => a ← alloc (OList items); mret (VRef a)
    | [VRef src] =>
        o ← deref src;
        match o with
        | Some (OList items) => a ← alloc (OList items); mret (VRef a)
        | _ => raise (TypeError "object is not iterable")
        end
    | [_] => raise (TypeError "object is not iterable")
    | _ => raise (TypeError "list expected at most 1 argument")
    end
  end.

(** ** The imported names *)

(** Modelled from the spec: [timescrap.proxy_scraper] and [timescrap.types]
    are imported by the notebook but their sources are not available; the
    spec names the three classes they export. *)
Definition module_attr (module name : string) : option value :=
  if String.eqb module "timescrap.proxy_scraper" then
    if String.eqb name "TimeDotIrScraper" then Some (VClass TimeDotIrScraper) else None
  else if String.eqb module "timescrap.types" then
    if String.eqb name "ScrapingParameters" then Some (VClass ScrapingParameters)
    else if String.eqb name "CalendarRange" then Some (VClass CalendarRange)
    else None
  else None.

(** Modelled from the spec: [CalendarRange] and [ScrapingParameters] are
    declared in [timescrap.types], which is not available.  The spec calls
    them data-holder objects whose fields are known from the notebook's use
    only; the field names are the keywords the notebook passes.  The scraper
    facade holds no declared fields. *)
Definition fields_of (c : class_name) : list string :=
  match c with
  | CalendarRange => ["calenadr_type"; "years"; "months"; "days"]
  | ScrapingParameters =>
      ["calendar_range"; "sleep_range"; "retry_limit_warning"; "halt_limit";
       "save_file_path"; "resume"]
  | TimeDotIrScraper => []
  end.

(** Modelled from the spec: the scraper facade offers the single method the
    notebook invokes. *)
Definition methods_of (c : class_name) : list string :=
  match c with
  | TimeDotIrScraper => ["scrape"]
  | _ => []
  end.

(** Python's binding of call arguments to named parameters: positional
    arguments first, then keywords; unknown, repeated and missing names are
    a [TypeError]. *)
Fixpoint bind_positional (params : list string) (args : list value)
    (m : gmap string value) {struct args} : exn + gmap string value :=
  match args, params with
  | [], _ => inr m
  | _ :: _, [] => inl (TypeError "too many positional arguments")
  | v :: args', p :: params' => bind_positional params' args' (<[p:=v]> m)
  end.

Fixpoint bind_keywords (params : list string) (kwargs : list (string * value))
    (m : gmap string value) : exn + gmap string value :=
  match kwargs with
  | [] => inr m
  | (k, v) :: kwargs' =>
      if bool_decide (k ∈ params) then
        match m !! k with
        | Some _ => inl (TypeError "got multiple values for argument")
        | None => bind_keywords params kwargs' (<[k:=v]> m)
        end
      else inl (TypeError "got an unexpected keyword argument")
  end.

Definition bind_fields (params : list string) (args : list value)
    (kwargs : list (string * value)) : exn + gmap string value :=
  match bind_positional params args ∅ with
  | inl e => inl e
  | inr m =>
    match bind_keywords params kwargs m with
    | inl e => inl e
    | inr m' =>
        if forallb (λ p, bool_decide (is_Some (m' !! p))) params then inr m'
        else inl (TypeError "missing required argument")
    end
  end.

(** ** Reading a trace *)

Definition is_call (ev : event) : bool :=
  match ev with ECall _ _ _ => true | _ => false end.

(** Calls and name bindings: the steps of the script that do something. *)
Definition is_step (ev : event) : bool :=
  match ev with ECall _ _ _ | EStore _ _ => true | _ => false end.

Definition is_builtin_call (ev : event) : bool :=
  match ev with ECall (VBuiltin _) _ _ => true | _ => false end.

Definition is_constructor_call (ev : event) : bool :=
  match ev with ECall (VClass _) _ _ => true | _ => false end.

Definition is_method_call (ev : event) : bool :=
  match ev with ECall (VMethod _ _) _ _ => true | _ => false end.

Definition callees (tr : list event) : list value :=
  omap (λ ev, match ev with ECall f _ _ => Some f | _ => None end) tr.

Definition stored_names (tr : list event) : list string :=
  omap (λ ev, match ev with EStore n _ => Some n | _ => None end) tr.

Definition loaded_names (tr : list event) : list string :=
  omap (λ ev, match ev with ELoad n => Some n | _ => None end) tr.

Definition imported_names (tr : list event) : list (string * string) :=
  omap (λ ev, match ev with EImport m n => Some (m, n) | _ => None end) tr.

Definition attribute_reads (tr : list event) : list (value * string) :=
  omap (λ ev, match ev with EGetAttr v a => Some (v, a) | _ => None end) tr.

Definition class_eqb (c d : class_name) : bool :=
  match c, d with
  | CalendarRange, CalendarRange
  | ScrapingParameters, ScrapingParameters
  | TimeDotIrScraper, TimeDotIrScraper => true
  | _, _ => false
  end.

Definition constructs (c : class_name) (ev : event) : bool :=
  match ev with ECall (VClass d) _ _ => class_eqb c d | _ => false end.

Definition is_ref (a : addr) (v : value) : bool :=
  match v with VRef b => Nat.eqb a b | _ => false end.

Definition is_str (s : string) (v : value) : bool :=
  match v with VStr t => String.eqb s t | _ => false end.

(** The call events that hand a value satisfying [p] to their callee. *)
Definition passes (p : value → bool) (ev : event) : bool :=
  match ev with
  | ECall _ args kwargs => existsb p args || existsb (λ kv, p kv.2) kwargs
  | _ => false
  end.

Definition occurrences (n : string) (names : list string) : nat :=
  List.length (List.filter (String.eqb n) names).

(** A method of the facade that writes to no object but its own instance
    (it may allocate). *)
Definition writes_only_self {A}
    (method : addr → list value → list (string * value) → Ext A) : Prop :=
  ∀ self args kwargs h r h' a o,
    method self args kwargs h = (r, h') →
    a ≠ self → h !! a = Some o → h' !! a = Some o.

(** ** A scraper that fetches nothing

    Its constructor stores nothing and [scrape] returns a new empty list.
    It shows that the assumptions made on the facade below can be met. *)
Definition idle_init : addr → list value → list (string * value) → Ext unit :=
  λ _ _ _ h, (inr (), h).

Definition idle_scrape : addr → list value → list (string * value) → Ext value :=
  λ _ _ _ h, (inr (VRef (List.length h)), h ++ [OList []]).

(** ** Scrapers that give up

    A constructor, and a [scrape], that raise [e] and leave the heap alone. *)
Definition failing_init (e : exn) : addr → list value → list (string * value) → Ext unit :=
  λ _ _ _ h, (inl e, h).

Definition failing_scrape (e : exn) : addr → list value → list (string * value) → Ext value :=
  λ _ _ _ h, (inl e, h).

(** ** A scraper that rewrites its parameters

    Its constructor keeps the parameters object in the field [parameters] of
    the new scraper; its [scrape] follows that field to the calendar range
    and replaces the month selector by the explicit months 1 to 12, in
    place, before returning a new empty list. *)
Definition keeping_init : addr → list value → list (string * value) → Ext unit :=
  λ self args _ h,
    match args with
    | [p] => (inr (), <[self:=OInst TimeDotIrScraper {[ "parameters" := p ]}]> h)
    | _ => (inl (TypeError "expected one argument"), h)
    end.

Definition field_of (h : list obj) (a : addr) (f : string) : option value :=
  match h !! a with
  | Some (OInst _ fields) => fields !! f
  | _ => None
  end.

Definition expanding_scrape : addr → list value → list (string * value) → Ext value :=
  λ self _ _ h,
    match field_of h self "parameters" with
    | Some (VRef p) =>
      match field_of h p "calendar_range" with
      | Some (VRef c) =>
        match h !! c with
        | Some (OInst cls fields) =>
            let h1 := <[c:=OInst cls (<["months":=VTuple (VInt <$> seqZ 1 12)]> fields)]> h in
            (inr (VRef (List.length h1)), h1 ++ [OList []])
        | _ => (inl (AttributeError "months"), h)
        end
      | _ => (inl (AttributeError "calendar_range"), h)
      end
    | _ => (inl (AttributeError "parameters"), h)
    end.

Section Notebook.

(** The scraper facade: the body of its constructor and its [scrape]
    method, both outside the notebook. *)
Variable scraper_init : addr → list value → list (string * value) → Ext unit.
Variable scraper_scrape : addr → list value → list (string * value) → Ext value.

Definition instantiate (c : class_name) (args : list value)
    (kwargs : list (string * value)) : Py value :=
  match c with
  | TimeDotIrScraper =>
      a ← alloc (OInst TimeDotIrScraper ∅);
      extern (scraper_init a args kwargs);;
      mret (VRef a)
  | _ =>
      m ← lift (bind_fields (fields_of c) args kwargs);
      a ← alloc (OInst c m);
      mret (VRef a)
  end.

Definition call_method (self : addr) (name : string) (args : list value)
    (kwargs : list (string * value)) : Py value :=
  o ← deref self;
  match o with
  | Some (OInst TimeDotIrScraper _) =>
      if String.eqb name "scrape" then extern (scraper_scrape self args kwargs)
      else raise (AttributeError name)
  | _ => raise (AttributeError name)
  end.

Definition apply (f : value) (args : list value) (kwargs : list (string * value)) : Py value :=
  match f with
  | VBuiltin BRange => call_range args kwargs
  | VBuiltin BList => call_list args kwargs
  | VClass c => instantiate c args kwargs
  | VMethod self name => call_method self name args kwargs
  | _ => raise (TypeError "object is not callable")
  end.

(** ** Expressions *)

Definition int (z : Z) : Py value := mret (VInt z).
Definition str (s : string) : Py value := mret (VStr s).
Definition boolean (b : bool) : Py value := mret (VBool b).

Definition tuple (es : list (Py value)) : Py value :=
  vs ← eval_args es; mret (VTuple vs).

(** A name is looked up in the globals, then in the builtins. *)
Definition name (n : string) : Py value :=
  emit (ELoad n);;
  g ← get_global n;
  match g with
  | Some v => mret v
  | None =>
    match builtins !! n with
    | Some v => mret v
    | None => raise (NameError n)
    end
  end.

(** [e.a]: the instance's own fields first, then the methods of its class. *)
Definition attr (e : Py value) (a : string) : Py value :=
  v ← e;
  emit (EGetAttr v a);;
  match v with
  | VRef r =>
      o ← deref r;
      match o with
      | Some (OInst c fields) =>
          match fields !! a with
          | Some fv => mret fv
          | None =>
              if bool_decide (a ∈ methods_of c) then mret (VMethod r a)
              else raise (AttributeError a)
          end
      | _ => raise (AttributeError a)
      end
  | _ => raise (AttributeError a)
  end.

(** [f(args, k=v, ...)]: callee, then positional arguments, then keyword
    arguments, left to right; then the call itself. *)
Definition call (f : Py value) (args : list (Py value))
    (kwargs : list (string * Py value)) : Py value :=
  fv ← f;
  avs ← eval_args args;
  kvs ← eval_kwargs kwargs;
  emit (ECall fv avs kvs);;
  apply fv avs kvs.

(** ** Statements *)

Definition assign (n : string) (e : Py value) : Py unit :=
  v ← e;
  emit (EStore n v);;
  set_global n v.

Definition import_name (module n : string) : Py unit :=
  emit (EImport module n);;
  match module_attr module n with
  | Some v => set_global n v
  | None => raise (ImportError module n)
  end.

Fixpoint block (stmts : list (Py unit)) : Py unit :=
  match stmts with
  | [] => mret ()
  | s :: stmts' => s;; block stmts'
  end.

Definition import_from (module : string) (names : list string) : Py unit :=
  block (map (import_name module) names).

Notation "n ::= e" := (assign n e) (at level 65, no associativity).
Notation "k :- e" := (pair k e) (at level 65, no associativity, only parsing).

(** ** The notebook *)

Definition cell_1 : list (Py unit) :=
  [ import_from "timescrap.proxy_scraper" ["TimeDotIrScraper"];
    import_from "timescrap.types" ["ScrapingParameters"; "CalendarRange"] ].

Definition cell_2 : list (Py unit) :=
  [ "years" ::= call (name "list") [call (name "range") [int 2019; int 2025] []] [];
    "months" ::= str "whole_year";
    "days" ::= str "whole_month";
    "calenadr_type" ::= str "gregorian";
    "sleep_range" ::= tuple [int 5; int 10];
    "retry_limit_warning" ::= int 20;
    "halt_limit" ::= int 50;
    "save_file_path" ::= str "gitignore_dir/time_dot_ir_2019_to_2024.json";
    "resume" ::= boolean true;
    "calendar_range" ::= call (name "CalendarRange") []
      [ "calenadr_type" :- name "calenadr_type";
        "years" :- name "years";
        "months" :- name "months";
        "days" :- name "days" ];
    "scraping_parameters" ::= call (name "ScrapingParameters") []
      [ "calendar_range" :- name "calendar_range";
        "sleep_range" :- name "sleep_range";
        "retry_limit_warning" :- name "retry_limit_warning";
        "halt_limit" :- name "halt_limit";
        "save_file_path" :- name "save_file_path";
        "resume" :- name "resume" ];
    "scraper" ::= call (name "TimeDotIrScraper") [name "scraping_parameters"] [];
    "results" ::= call (attr (name "scraper") "scrape") [] [] ].

(** The third cell holds a comment only. *)
Definition cell_3 : list (Py unit) := [].

Definition notebook : Py unit := block (cell_1 ++ cell_2 ++ cell_3).

(** The script up to and including the first [n] statements of the second
    cell. *)
Definition upto (n : nat) : Py unit := block (cell_1 ++ take n cell_2).

Definition run {A} (p : Py A) : (exn + A) * state := p initial_state.

(** The state once both data holders are built, before the scraper facade
    is touched. *)
Definition configured : state := snd (run (upto 11)).

Definition scraper_addr : addr := List.length (heap configured).

(** The constructor of the facade returns and leaves [scrape] resolving to
    the method of the class. *)
Definition constructor_returns (h : list obj) : Prop :=
  scraper_init scraper_addr [VRef 2%nat] []
    (heap configured ++ [OInst TimeDotIrScraper ∅]) = (inr (), h)
  ∧ ∃ fields, h !! scraper_addr = Some (OInst TimeDotIrScraper fields)
              ∧ fields !! "scrape" = None.

Definition scrape_returns (h : list obj) (v : value) (h' : list obj) : Prop :=
  scraper_scrape scraper_addr [] [] h = (inr v, h').

Definition finished (v : value) (h' : list obj) : state :=
  {| globals := <["results":=v]> (<["scraper":=VRef scraper_addr]> (globals configured));
     heap := h';
     trace := trace configured ++
       [ ELoad "TimeDotIrScraper"; ELoad "scraping_parameters";
         ECall (VClass TimeDotIrScraper) [VRef 2%nat] [];
         EStore "scraper" (VRef scraper_addr);
         ELoad "scraper"; EGetAttr (VRef scraper_addr) "scrape";
         ECall (VMethod scraper_addr "scrape") [] [];
         EStore "results" v ] |}.

(** *** Symbolic execution of the statements *)

Lemma block_app (l1 l2 : list (Py unit)) (st : state) :
  block (l1 ++ l2) st =
  match block l1 st with
  | (inl e, st') => (inl e, st')
  | (inr _, st') => block l2 st'
  end.
Proof.
  revert st. induction l1 as [|s l1 IH]; intros st; simpl.
  - reflexivity.
  - unfold mbind, Py_bind. destruct (s st) as [[e|[]] st']; [reflexivity|apply IH].
Qed.

Ltac py_unfold :=
  unfold assign, call, attr, name, tuple, int, str, boolean, apply, instantiate,
    call_method, alloc, extern, deref, raise, emit, get_global, set_global,
    lift, mbind, Py_bind, mret, Py_ret; simpl.

Ltac py_exec :=
  repeat (py_unfold;
          repeat match goal with H : _ = _ |- _ => rewrite H end;
          simpl).

Lemma exec_scraper_stmt (st : state) (p : value) :
  globals st !! "TimeDotIrScraper" = Some (VClass TimeDotIrScraper) →
  globals st !! "scraping_parameters" = Some p →
  ("scraper" ::= call (name "TimeDotIrScraper") [name "scraping_parameters"] []) st =
  let self := List.length (heap st) in
  let tr := trace st ++
    [ ELoad "TimeDotIrScraper"; ELoad "scraping_parameters";
      ECall (VClass TimeDotIrScraper) [p] [] ] in
  match scraper_init self [p] [] (heap st ++ [OInst TimeDotIrScraper ∅]) with
  | (inl e, h) => (inl e, {| globals := globals st; heap := h; trace := tr |})
  | (inr _, h) =>
      (inr (), {| globals := <["scraper":=VRef self]> (globals st); heap := h;
                  trace := tr ++ [EStore "scraper" (VRef self)] |})
  end.
Proof.
  intros Hcls Hp. py_exec.
  destruct (scraper_init _ _ _ _) as [[e|[]] h]; simpl;
    rewrite <- ?app_assoc; reflexivity.
Qed.

Lemma exec_scrape_stmt (st : state) (self : addr) (fields : gmap string value) :
  globals st !! "scraper" = Some (VRef self) →
  heap st !! self = Some (OInst TimeDotIrScraper fields) →
  fields !! "scrape" = None →
  ("results" ::= call (attr (name "scraper") "scrape") [] []) st =
  let tr := trace st ++
    [ ELoad "scraper"; EGetAttr (VRef self) "scrape";
      ECall (VMethod self "scrape") [] [] ] in
  match scraper_scrape self [] [] (heap st) with
  | (inl e, h) => (inl e, {| globals := globals st; heap := h; trace := tr |})
  | (inr v, h) =>
      (inr (), {| globals := <["results":=v]> (globals st); heap := h;
                  trace := tr ++ [EStore "results" v] |})
  end.
Proof.
  intros Hg Hobj Hfld. py_exec.
  destruct (scraper_scrape _ _ _ _) as [[e|v] h]; simpl;
    rewrite <- ?app_assoc; reflexivity.
Qed.

Lemma upto_11_returns : fst (run (upto 11)) = inr ().
Proof. vm_compute. reflexivity. Qed.

Lemma run_upto_11 : run (upto 11) = (inr (), configured).
Proof.
  pose proof upto_11_returns as H. unfold configured.
  destruct (run (upto 11)) as [r st]. simpl in *. subst r. reflexivity.
Qed.

Lemma notebook_split :
  cell_1 ++ cell_2 ++ cell_3 = (cell_1 ++ take 11 cell_2) ++ drop 11 cell_2.
Proof. reflexivity. Qed.

Lemma notebook_completes h v h' :
  constructor_returns h → scrape_returns h v h' →
  run notebook = (inr (), finished v h').
Proof.
  intros [Hinit (fields & Hobj & Hfld)] Hscrape.
  unfold run, notebook. rewrite notebook_split, block_app.
  fold (upto 11). fold (run (upto 11)). rewrite run_upto_11.
  change (drop 11 cell_2) with
    [ "scraper" ::= call (name "TimeDotIrScraper") [name "scraping_parameters"] [];
      "results" ::= call (attr (name "scraper") "scrape") [] [] ].
  cbn [block]. unfold mbind at 1, Py_bind at 1.
  rewrite (exec_scraper_stmt configured (VRef 2%nat))
    by (vm_compute; reflexivity).
  cbv zeta. fold scraper_addr. rewrite Hinit.
  unfold mbind at 1, Py_bind at 1.
  rewrite (exec_scrape_stmt _ scraper_addr fields);
    [ | apply lookup_insert_eq | exact Hobj | exact Hfld ].
  cbv zeta. cbn [heap globals trace]. rewrite Hscrape.
  unfold finished. cbn. rewrite <- !app_assoc. reflexivity.
Qed.


(** *** The builtins and the argument binder *)

Lemma range_len_unit_step (lo hi : Z) :
  range_len lo hi 1 = Z.max 0 (hi - lo).
Proof.
  unfold range_len. simpl. destruct (Z.ltb_spec lo hi).
  - rewrite Z.div_1_r. lia.
  - lia.
Qed.

Lemma range_items_unit_step (lo hi z : Z) :
  In (VInt z) (range_items lo hi 1) ↔ lo ≤ z < hi.
Proof.
  unfold range_items. rewrite range_len_unit_step, in_map_iff. split.
  - intros (i & Heq & Hi). apply in_seq in Hi. injection Heq as <-. lia.
  - intros Hz. exists (Z.to_nat (z - lo)). split.
    + f_equal. lia.
    + apply in_seq. lia.
Qed.

Lemma bind_positional_error params args m e :
  bind_positional params args m = inl e → ∃ msg, e = TypeError msg.
Proof.
  revert params m. induction args as [|v args IH]; intros params m; simpl.
  - discriminate.
  - destruct params as [|p params]; [intros [= <-]; eauto | apply IH].
Qed.

Lemma bind_keywords_unknown params kwargs k :
  k ∉ params → k ∈ kwargs.*1 →
  ∀ m, ∃ msg, bind_keywords params kwargs m = inl (TypeError msg).
Proof.
  intros Hk. induction kwargs as [|[k' v'] kwargs IH]; simpl; intros Hin m.
  - apply elem_of_nil in Hin as [].
  - destruct (bool_decide (k' ∈ params)) eqn:E; [|eauto].
    apply bool_decide_eq_true in E.
    destruct (m !! k'); [eauto|].
    apply elem_of_cons in Hin as [->|Hin]; [contradiction|].
    apply IH, Hin.
Qed.

Ltac in_list := repeat (try (left; reflexivity); right).

(** ** The notebook's properties *)

(** C1: provided the facade's constructor and its [scrape] return, the
    notebook runs to completion and its calls and bindings are, in this
    order: the nine plain settings, the [CalendarRange] built from four of
    them, the [ScrapingParameters] built from that range and the other five
    settings, the [TimeDotIrScraper] built from that parameters object, and
    [scrape()] on that scraper, whose returned value is bound to [results]. *)
Theorem notebook_order (h : list obj) (v : value) (h' : list obj) :
  constructor_returns h → scrape_returns h v h' →
  ∃ st, run notebook = (inr (), st)
    ∧ List.filter is_step (trace st) =
        [ ECall (VBuiltin BRange) [VInt 2019; VInt 2025] [];
          ECall (VBuiltin BList) [VRange 2019 2025 1] [];
          EStore "years" (VRef 0);
          EStore "months" (VStr "whole_year");
          EStore "days" (VStr "whole_month");
          EStore "calenadr_type" (VStr "gregorian");
          EStore "sleep_range" (VTuple [VInt 5; VInt 10]);
          EStore "retry_limit_warning" (VInt 20);
          EStore "halt_limit" (VInt 50);
          EStore "save_file_path" (VStr "gitignore_dir/time_dot_ir_2019_to_2024.json");
          EStore "resume" (VBool true);
          ECall (VClass CalendarRange) []
            [ ("calenadr_type", VStr "gregorian"); ("years", VRef 0);
              ("months", VStr "whole_year"); ("days", VStr "whole_month") ];
          EStore "calendar_range" (VRef 1);
          ECall (VClass ScrapingParameters) []
            [ ("calendar_range", VRef 1);
              ("sleep_range", VTuple [VInt 5; VInt 10]);
              ("retry_limit_warning", VInt 20);
              ("halt_limit", VInt 50);
              ("save_file_path", VStr "gitignore_dir/time_dot_ir_2019_to_2024.json");
              ("resume", VBool true) ];
          EStore "scraping_parameters" (VRef 2);
          ECall (VClass TimeDotIrScraper) [VRef 2] [];
          EStore "scraper" (VRef 3);
          ECall (VMethod 3 "scrape") [] [];
          EStore "results" v ]
    ∧ globals st !! "results" = Some v.
Proof.
  intros Hc Hs. exists (finished v h').
  split; [apply (notebook_completes h); assumption|].
  split; [vm_compute; reflexivity | apply lookup_insert_eq].
Qed.

(** C2 (amended): the first cell consists of import statements only, the
    second of assignments only, the third is empty; when the facade's calls
    return, the assignments make exactly six calls: the two builtin calls
    [range] and [list], three constructor calls ([CalendarRange],
    [ScrapingParameters], [TimeDotIrScraper]) and, last, exactly one method
    invocation, [scrape]. *)
Theorem notebook_calls (h : list obj) (v : value) (h' : list obj) :
  constructor_returns h → scrape_returns h v h' →
  Forall (λ s, ∃ module names, s = import_from module names) cell_1
  ∧ Forall (λ s, ∃ n e, s = assign n e) cell_2
  ∧ cell_3 = []
  ∧ ∃ st, run notebook = (inr (), st)
    ∧ callees (trace st) =
        [ VBuiltin BRange; VBuiltin BList; VClass CalendarRange;
          VClass ScrapingParameters; VClass TimeDotIrScraper; VMethod 3 "scrape" ]
    ∧ List.length (List.filter is_builtin_call (trace st)) = 2%nat
    ∧ List.length (List.filter is_constructor_call (trace st)) = 3%nat
    ∧ List.length (List.filter is_method_call (trace st)) = 1%nat
    ∧ List.length (List.filter is_call (trace st)) = 6%nat.
Proof.
  intros Hc Hs.
  split; [repeat constructor; eexists _, _; reflexivity|].
  split; [repeat constructor; eexists _, _; reflexivity|].
  split; [reflexivity|].
  exists (finished v h'). split; [apply (notebook_completes h); assumption|].
  repeat apply conj; vm_compute; reflexivity.
Qed.

(** C3: the [ScrapingParameters] object is built by a call with no positional
    argument and exactly six keyword arguments; each keyword carries the
    value of the variable of the same name, loaded just before the call and
    assigned earlier in the script; the object holds exactly these six
    fields. *)
Theorem scraping_parameters_bundle :
  let kwargs :=
    [ ("calendar_range", VRef 1);
      ("sleep_range", VTuple [VInt 5; VInt 10]);
      ("retry_limit_warning", VInt 20);
      ("halt_limit", VInt 50);
      ("save_file_path", VStr "gitignore_dir/time_dot_ir_2019_to_2024.json");
      ("resume", VBool true) ] in
  ∃ before,
    trace configured =
      before ++ map ELoad ("ScrapingParameters" :: kwargs.*1)
             ++ [ ECall (VClass ScrapingParameters) [] kwargs;
                  EStore "scraping_parameters" (VRef 2) ]
    ∧ Forall (λ kv, In (EStore kv.1 kv.2) before
                    ∧ globals configured !! kv.1 = Some kv.2) kwargs
    ∧ List.length kwargs = 6%nat
    ∧ globals configured !! "scraping_parameters" = Some (VRef 2)
    ∧ heap configured !! 2%nat = Some (OInst ScrapingParameters (list_to_map kwargs))
    ∧ size (list_to_map kwargs : gmap string value) = 6%nat.
Proof.
  intros kwargs. exists (take 23 (trace configured)).
  split; [vm_compute; reflexivity|].
  split.
  { vm_compute.
    repeat (apply List.Forall_cons; [split; [in_list | reflexivity] | ]).
    constructor. }
  repeat apply conj; vm_compute; reflexivity.
Qed.

(** C4: the [CalendarRange] object bound to [calendar_range] has the field
    [calenadr_type] set to "gregorian", the field [years] referring to a
    list object, [months] set to "whole_year" and [days] set to
    "whole_month", and no other field. *)
Theorem calendar_range_fields :
  ∃ fields items,
    globals configured !! "calendar_range" = Some (VRef 1)
    ∧ heap configured !! 1%nat = Some (OInst CalendarRange fields)
    ∧ fields !! "calenadr_type" = Some (VStr "gregorian")
    ∧ fields !! "years" = Some (VRef 0)
    ∧ heap configured !! 0%nat = Some (OList items)
    ∧ fields !! "months" = Some (VStr "whole_year")
    ∧ fields !! "days" = Some (VStr "whole_month")
    ∧ size fields = 4%nat.
Proof.
  exists (list_to_map
    [ ("calenadr_type", VStr "gregorian"); ("years", VRef 0);
      ("months", VStr "whole_year"); ("days", VStr "whole_month") ]),
    (range_items 2019 2025 1).
  repeat apply conj; vm_compute; reflexivity.
Qed.


(** C6: when the facade's calls return, the notebook makes exactly one
    method call, [scrape()] with no argument, on the object bound to
    [scraper], the only [TimeDotIrScraper] it builds; [scrape] is the only
    attribute it reads; the value the call returns is bound to [results] as
    the script's next and last step; the only imports are the three
    [timescrap] names and the only other callees are [range], [list] and
    the three classes. *)
Theorem scrape_called_once (h : list obj) (v : value) (h' : list obj) :
  constructor_returns h → scrape_returns h v h' →
  ∃ st before, run notebook = (inr (), st)
    ∧ List.filter is_method_call (trace st) = [ECall (VMethod 3 "scrape") [] []]
    ∧ attribute_reads (trace st) = [(VRef 3, "scrape")]
    ∧ globals st !! "scraper" = Some (VRef 3)
    ∧ List.filter (constructs TimeDotIrScraper) (trace st) =
        [ECall (VClass TimeDotIrScraper) [VRef 2] []]
    ∧ trace st = before ++ [ECall (VMethod 3 "scrape") [] []; EStore "results" v]
    ∧ imported_names (trace st) =
        [ ("timescrap.proxy_scraper", "TimeDotIrScraper");
          ("timescrap.types", "ScrapingParameters");
          ("timescrap.types", "CalendarRange") ]
    ∧ callees (trace st) =
        [ VBuiltin BRange; VBuiltin BList; VClass CalendarRange;
          VClass ScrapingParameters; VClass TimeDotIrScraper; VMethod 3 "scrape" ].
Proof.
  intros Hc Hs. exists (finished v h'), (take 38 (trace (finished v h'))).
  split; [apply (notebook_completes h); assumption|].
  repeat apply conj; vm_compute; reflexivity.
Qed.

(** C7: the string "gitignore_dir/time_dot_ir_2019_to_2024.json", which ends
    in ".json", is the [save_file_path] field of the [ScrapingParameters]
    object; the notebook binds it to the variable [save_file_path] once,
    reads that variable once, and hands it to one call only, the
    [ScrapingParameters] constructor, under the keyword [save_file_path];
    none of the notebook's six calls is a file operation. *)
Theorem save_file_path_parameter (h : list obj) (v : value) (h' : list obj) :
  constructor_returns h → scrape_returns h v h' →
  let path := "gitignore_dir/time_dot_ir_2019_to_2024.json" in
  ∃ st fields kwargs, run notebook = (inr (), st)
    ∧ String.substring (String.length path - 5)%nat 5 path = ".json"
    ∧ heap configured !! 2%nat = Some (OInst ScrapingParameters fields)
    ∧ fields !! "save_file_path" = Some (VStr path)
    ∧ In (EStore "save_file_path" (VStr path)) (trace st)
    ∧ List.filter (passes (is_str path)) (trace st) =
        [ECall (VClass ScrapingParameters) [] kwargs]
    ∧ kwargs !! 4%nat = Some ("save_file_path", VStr path)
    ∧ occurrences "save_file_path" (stored_names (trace st)) = 1%nat
    ∧ occurrences "save_file_path" (loaded_names (trace st)) = 1%nat
    ∧ callees (trace st) =
        [ VBuiltin BRange; VBuiltin BList; VClass CalendarRange;
          VClass ScrapingParameters; VClass TimeDotIrScraper; VMethod 3 "scrape" ].
Proof.
  intros Hc Hs path.
  exists (finished v h'),
    (list_to_map
       [ ("calendar_range", VRef 1); ("sleep_range", VTuple [VInt 5; VInt 10]);
         ("retry_limit_warning", VInt 20); ("halt_limit", VInt 50);
         ("save_file_path", VStr path); ("resume", VBool true) ]),
    [ ("calendar_range", VRef 1); ("sleep_range", VTuple [VInt 5; VInt 10]);
      ("retry_limit_warning", VInt 20); ("halt_limit", VInt 50);
      ("save_file_path", VStr path); ("resume", VBool true) ].
  split; [apply (notebook_completes h); assumption|].
  repeat apply conj; try (vm_compute; reflexivity).
  vm_compute. in_list.
Qed.

(** C8: the notebook passes the calendar system to [CalendarRange] under the
    keyword [calenadr_type]; [calendar_type] is not among the keywords it
    passes, and a call of [CalendarRange] that passes the keyword
    [calendar_type] is rejected with a [TypeError] by the constructor as
    the notebook exercises it. *)
Theorem calenadr_type_keyword
    (args : list value) (kwargs : list (string * value)) (st : state) :
  (∃ rest,
      List.filter (constructs CalendarRange) (trace configured) =
        [ECall (VClass CalendarRange) [] (("calenadr_type", VStr "gregorian") :: rest)]
      ∧ ¬ In "calendar_type" ("calenadr_type" :: rest.*1))
  ∧ ("calendar_type" ∈ kwargs.*1 →
     ∃ msg, instantiate CalendarRange args kwargs st = (inl (TypeError msg), st)).
Proof.
  split.
  - exists [ ("years", VRef 0); ("months", VStr "whole_year");
             ("days", VStr "whole_month") ].
    split; [vm_compute; reflexivity|].
    simpl. intuition discriminate.
  - intros Hin. unfold instantiate, lift, bind_fields.
    unfold mbind, Py_bind.
    destruct (bind_positional _ args ∅) as [e|m] eqn:Hpos.
    + apply bind_positional_error in Hpos as [msg ->]. eauto.
    + destruct (bind_keywords_unknown (fields_of CalendarRange) kwargs
                  "calendar_type") with (m := m) as [msg ->]; [|exact Hin|eauto].
      simpl. intros H.
      repeat (apply elem_of_cons in H as [H|H]; [discriminate|]).
      apply elem_of_nil in H as [].
Qed.

(** C9: [years] is bound to a list object holding exactly 2019, 2020, 2021,
    2022, 2023, 2024, the items of [range(2019, 2025)]: it contains 2024 and
    not 2025; that list is what the [years] keyword of [CalendarRange]
    receives, and its first and last items are the two years in the name of
    the output file. *)
Theorem years_value :
  let items := VInt <$> [2019; 2020; 2021; 2022; 2023; 2024] in
  globals configured !! "years" = Some (VRef 0)
  ∧ heap configured !! 0%nat = Some (OList items)
  ∧ range_items 2019 2025 1 = items
  ∧ (∀ z, In (VInt z) items ↔ 2019 ≤ z < 2025)
  ∧ List.length items = 6%nat
  ∧ (∃ k rest,
       List.filter (constructs CalendarRange) (trace configured) =
         [ECall (VClass CalendarRange) [] (k :: ("years", VRef 0) :: rest)])
  ∧ head items = Some (VInt 2019) ∧ last items = Some (VInt 2024)
  ∧ globals configured !! "save_file_path" =
      Some (VStr ("gitignore_dir/time_dot_ir_" +:+ pretty 2019 +:+ "_to_"
                  +:+ pretty 2024 +:+ ".json")).
Proof.
  intros items.
  assert (range_items 2019 2025 1 = items) as Hrange by (vm_compute; reflexivity).
  split; [vm_compute; reflexivity|].
  split; [vm_compute; reflexivity|].
  split; [exact Hrange|].
  split; [intros z; rewrite <- Hrange; apply range_items_unit_step|].
  split; [reflexivity|].
  split; [eexists _, _; vm_compute; reflexivity|].
  repeat apply conj; vm_compute; reflexivity.
Qed.

(** C10: in the [ScrapingParameters] object the delay interval is a pair
    whose lower bound 5 is strictly below its upper bound 10, and the retry
    warning threshold 20 is strictly below the halt threshold 50. *)
Theorem thresholds_ordered :
  ∃ fields lo hi warning halt,
    heap configured !! 2%nat = Some (OInst ScrapingParameters fields)
    ∧ fields !! "sleep_range" = Some (VTuple [VInt lo; VInt hi])
    ∧ fields !! "retry_limit_warning" = Some (VInt warning)
    ∧ fields !! "halt_limit" = Some (VInt halt)
    ∧ lo = 5 ∧ hi = 10 ∧ warning = 20 ∧ halt = 50
    ∧ lo < hi ∧ warning < halt.
Proof.
  exists (list_to_map
    [ ("calendar_range", VRef 1); ("sleep_range", VTuple [VInt 5; VInt 10]);
      ("retry_limit_warning", VInt 20); ("halt_limit", VInt 50);
      ("save_file_path", VStr "gitignore_dir/time_dot_ir_2019_to_2024.json");
      ("resume", VBool true) ]), 5, 10, 20, 50.
  repeat apply conj; try lia; vm_compute; reflexivity.
Qed.

(** ** Running the cell in any kernel state *)

Lemma builtins_list : builtins !! "list" = Some (VBuiltin BList).
Proof. vm_compute. reflexivity. Qed.

Lemma builtins_range : builtins !! "range" = Some (VBuiltin BRange).
Proof. vm_compute. reflexivity. Qed.

Lemma builtins_CalendarRange : builtins !! "CalendarRange" = None.
Proof. vm_compute. reflexivity. Qed.

Lemma years_range_fits : (range_len 2019 2025 1 <=? ssize_max) = true.
Proof. vm_compute. reflexivity. Qed.

Ltac py_run :=
  repeat (unfold assign, call, attr, name, tuple, int, str, boolean, apply,
            instantiate, call_method, call_range, call_list, alloc, extern,
            deref, raise, emit, get_global, set_global, lift, mbind, Py_bind,
            mret, Py_ret;
          cbn -[bind_fields fields_of list_to_map insert lookup builtins range_items
               range_len ssize_max];
          repeat match goal with H : _ = _ |- _ => rewrite H end).

Lemma exec_years_stmt (st : state) :
  globals st !! "list" = None → globals st !! "range" = None →
  ("years" ::= call (name "list") [call (name "range") [int 2019; int 2025] []] []) st =
  (inr (),
   {| globals := <["years":=VRef (List.length (heap st))]> (globals st);
      heap := heap st ++ [OList (range_items 2019 2025 1)];
      trace := trace st ++
        [ ELoad "list"; ELoad "range";
          ECall (VBuiltin BRange) [VInt 2019; VInt 2025] [];
          ECall (VBuiltin BList) [VRange 2019 2025 1] [];
          EStore "years" (VRef (List.length (heap st))) ] |}).
Proof.
  intros Hlist Hrange.
  pose proof builtins_list as Bl. pose proof builtins_range as Br.
  pose proof years_range_fits as Hfits.
  py_run. rewrite <- !app_assoc. reflexivity.
Qed.

Lemma exec_settings (st : state) :
  block (take 8 (drop 1 cell_2)) st =
  (inr (),
   {| globals :=
        <["resume":=VBool true]>
        (<["save_file_path":=VStr "gitignore_dir/time_dot_ir_2019_to_2024.json"]>
        (<["halt_limit":=VInt 50]>
        (<["retry_limit_warning":=VInt 20]>
        (<["sleep_range":=VTuple [VInt 5; VInt 10]]>
        (<["calenadr_type":=VStr "gregorian"]>
        (<["days":=VStr "whole_month"]>
        (<["months":=VStr "whole_year"]> (globals st))))))));
      heap := heap st;
      trace := trace st ++
        [ EStore "months" (VStr "whole_year");
          EStore "days" (VStr "whole_month");
          EStore "calenadr_type" (VStr "gregorian");
          EStore "sleep_range" (VTuple [VInt 5; VInt 10]);
          EStore "retry_limit_warning" (VInt 20);
          EStore "halt_limit" (VInt 50);
          EStore "save_file_path" (VStr "gitignore_dir/time_dot_ir_2019_to_2024.json");
          EStore "resume" (VBool true) ] |}).
Proof.
  unfold cell_2. cbn [take drop block]. py_run.
  rewrite <- !app_assoc. reflexivity.
Qed.

Lemma bind_calendar_range_fields (v1 v2 v3 v4 : value) :
  bind_fields (fields_of CalendarRange) []
    [ ("calenadr_type", v1); ("years", v2); ("months", v3); ("days", v4) ] =
  inr (list_to_map
    [ ("calenadr_type", v1); ("years", v2); ("months", v3); ("days", v4) ]).
Proof. vm_compute. reflexivity. Qed.

Lemma bind_scraping_parameters_fields (v1 v2 v3 v4 v5 v6 : value) :
  bind_fields (fields_of ScrapingParameters) []
    [ ("calendar_range", v1); ("sleep_range", v2); ("retry_limit_warning", v3);
      ("halt_limit", v4); ("save_file_path", v5); ("resume", v6) ] =
  inr (list_to_map
    [ ("calendar_range", v1); ("sleep_range", v2); ("retry_limit_warning", v3);
      ("halt_limit", v4); ("save_file_path", v5); ("resume", v6) ]).
Proof. vm_compute. reflexivity. Qed.

Lemma exec_calendar_range_stmt (st : state) (v1 v2 v3 v4 : value) :
  globals st !! "CalendarRange" = Some (VClass CalendarRange) →
  globals st !! "calenadr_type" = Some v1 →
  globals st !! "years" = Some v2 →
  globals st !! "months" = Some v3 →
  globals st !! "days" = Some v4 →
  ("calendar_range" ::= call (name "CalendarRange") []
      [ "calenadr_type" :- name "calenadr_type";
        "years" :- name "years";
        "months" :- name "months";
        "days" :- name "days" ]) st =
  (inr (),
   {| globals := <["calendar_range":=VRef (List.length (heap st))]> (globals st);
      heap := heap st ++
        [OInst CalendarRange (list_to_map
           [ ("calenadr_type", v1); ("years", v2); ("months", v3); ("days", v4) ])];
      trace := trace st ++
        [ ELoad "CalendarRange"; ELoad "calenadr_type"; ELoad "years";
          ELoad "months"; ELoad "days";
          ECall (VClass CalendarRange) []
            [ ("calenadr_type", v1); ("years", v2); ("months", v3); ("days", v4) ];
          EStore "calendar_range" (VRef (List.length (heap st))) ] |}).
Proof.
  intros Hc H1 H2 H3 H4.
  pose proof (bind_calendar_range_fields v1 v2 v3 v4) as Hb.
  py_run. rewrite <- !app_assoc. reflexivity.
Qed.

Lemma exec_scraping_parameters_stmt (st : state) (v1 v2 v3 v4 v5 v6 : value) :
  globals st !! "ScrapingParameters" = Some (VClass ScrapingParameters) →
  globals st !! "calendar_range" = Some v1 →
  globals st !! "sleep_range" = Some v2 →
  globals st !! "retry_limit_warning" = Some v3 →
  globals st !! "halt_limit" = Some v4 →
  globals st !! "save_file_path" = Some v5 →
  globals st !! "resume" = Some v6 →
  ("scraping_parameters" ::= call (name "ScrapingParameters") []
      [ "calendar_range" :- name "calendar_range";
        "sleep_range" :- name "sleep_range";
        "retry_limit_warning" :- name "retry_limit_warning";
        "halt_limit" :- name "halt_limit";
        "save_file_path" :- name "save_file_path";
        "resume" :- name "resume" ]) st =
  (inr (),
   {| globals := <["scraping_parameters":=VRef (List.length (heap st))]> (globals st);
      heap := heap st ++
        [OInst ScrapingParameters (list_to_map
           [ ("calendar_range", v1); ("sleep_range", v2);
             ("retry_limit_warning", v3); ("halt_limit", v4);
             ("save_file_path", v5); ("resume", v6) ])];
      trace := trace st ++
        [ ELoad "ScrapingParameters"; ELoad "calendar_range"; ELoad "sleep_range";
          ELoad "retry_limit_warning"; ELoad "halt_limit"; ELoad "save_file_path";
          ELoad "resume";
          ECall (VClass ScrapingParameters) []
            [ ("calendar_range", v1); ("sleep_range", v2);
              ("retry_limit_warning", v3); ("halt_limit", v4);
              ("save_file_path", v5); ("resume", v6) ];
          EStore "scraping_parameters" (VRef (List.length (heap st))) ] |}).
Proof.
  intros Hc H1 H2 H3 H4 H5 H6.
  pose proof (bind_scraping_parameters_fields v1 v2 v3 v4 v5 v6) as Hb.
  py_run. rewrite <- !app_assoc. reflexivity.
Qed.

Lemma configuration_split :
  take 11 cell_2 = take 1 cell_2 ++ take 8 (drop 1 cell_2) ++ take 2 (drop 9 cell_2).
Proof. reflexivity. Qed.

Lemma range_items_years :
  range_items 2019 2025 1 = VInt <$> [2019; 2020; 2021; 2022; 2023; 2024].
Proof. vm_compute. reflexivity. Qed.

Ltac solve_lookup :=
  cbn [globals];
  repeat (rewrite lookup_insert_ne by discriminate);
  first [assumption | apply lookup_insert_eq].

(** X1: in any kernel state in which [list] and [range] are not shadowed and
    the two data-holder classes are imported, the first eleven statements of
    the second cell complete; they read no variable but the ones they have
    assigned themselves, append exactly three objects to the heap (the year
    list, a [CalendarRange] whose [years] is that list, and a
    [ScrapingParameters] whose [calendar_range] is that range), bind the
    eleven names whatever they held before, and leave every other name and
    every existing object as it was. *)
Theorem configuration_self_contained (st : state) :
  globals st !! "list" = None → globals st !! "range" = None →
  globals st !! "CalendarRange" = Some (VClass CalendarRange) →
  globals st !! "ScrapingParameters" = Some (VClass ScrapingParameters) →
  let a := List.length (heap st) in
  let path := VStr "gitignore_dir/time_dot_ir_2019_to_2024.json" in
  ∃ st' tr, block (take 11 cell_2) st = (inr (), st')
    ∧ heap st' = heap st ++
        [ OList (VInt <$> [2019; 2020; 2021; 2022; 2023; 2024]);
          OInst CalendarRange (list_to_map
            [ ("calenadr_type", VStr "gregorian"); ("years", VRef a);
              ("months", VStr "whole_year"); ("days", VStr "whole_month") ]);
          OInst ScrapingParameters (list_to_map
            [ ("calendar_range", VRef (a + 1)%nat);
              ("sleep_range", VTuple [VInt 5; VInt 10]);
              ("retry_limit_warning", VInt 20); ("halt_limit", VInt 50);
              ("save_file_path", path); ("resume", VBool true) ]) ]
    ∧ globals st' !! "years" = Some (VRef a)
    ∧ globals st' !! "calendar_range" = Some (VRef (a + 1)%nat)
    ∧ globals st' !! "scraping_parameters" = Some (VRef (a + 2)%nat)
    ∧ (∀ n, n ∉ [ "years"; "months"; "days"; "calenadr_type"; "sleep_range";
                  "retry_limit_warning"; "halt_limit"; "save_file_path";
                  "resume"; "calendar_range"; "scraping_parameters" ] →
            globals st' !! n = globals st !! n)
    ∧ trace st' = trace st ++ tr
    ∧ loaded_names tr =
        [ "list"; "range"; "CalendarRange"; "calenadr_type"; "years"; "months";
          "days"; "ScrapingParameters"; "calendar_range"; "sleep_range";
          "retry_limit_warning"; "halt_limit"; "save_file_path"; "resume" ]
    ∧ callees tr =
        [ VBuiltin BRange; VBuiltin BList; VClass CalendarRange;
          VClass ScrapingParameters ].
Proof.
  intros Hl Hr Hc Hs a path. subst a path.
  eexists _, _. split.
  { rewrite configuration_split, block_app.
    unfold cell_2 at 1. cbn [take block]. unfold mbind at 1, Py_bind at 1.
    rewrite exec_years_stmt by assumption.
    unfold mret at 1, Py_ret at 1. cbv beta iota.
    rewrite block_app, exec_settings.
    unfold cell_2. cbn [take drop block]. unfold mbind at 1, Py_bind at 1.
    erewrite exec_calendar_range_stmt by solve_lookup.
    unfold mbind at 1, Py_bind at 1.
    erewrite exec_scraping_parameters_stmt by solve_lookup.
    reflexivity. }
  cbn [heap globals trace].
  rewrite !length_app. cbn [List.length].
  rewrite <- !Nat.add_assoc. cbn [Nat.add].
  split; [rewrite range_items_years, <- !app_assoc; reflexivity|].
  split; [solve_lookup|].
  split; [solve_lookup|].
  split; [solve_lookup|].
  split.
  { intros n Hn.
    repeat (rewrite lookup_insert_ne;
            [|intros <-; apply Hn; repeat constructor]).
    reflexivity. }
  split; [rewrite <- !app_assoc; reflexivity|].
  split; vm_compute; reflexivity.
Qed.

Lemma notebook_run_launch :
  run notebook =
  match run (upto 11) with
  | (inl e, st) => (inl e, st)
  | (inr _, st) => block (drop 11 cell_2) st
  end.
Proof.
  unfold run, notebook. rewrite notebook_split, block_app. reflexivity.
Qed.

(** X2: if the facade's constructor raises, the notebook stops there with
    that exception: [scrape] is never called, neither [scraper] nor [results]
    is bound, [scraping_parameters] stays bound, and the heap is the one the
    constructor left. *)
Theorem constructor_failure_stops_notebook (e : exn) (h : list obj) :
  scraper_init scraper_addr [VRef 2] []
    (heap configured ++ [OInst TimeDotIrScraper ∅]) = (inl e, h) →
  ∃ st, run notebook = (inl e, st)
    ∧ heap st = h
    ∧ globals st !! "scraper" = None
    ∧ globals st !! "results" = None
    ∧ globals st !! "scraping_parameters" = Some (VRef 2)
    ∧ List.filter is_method_call (trace st) = []
    ∧ callees (trace st) =
        [ VBuiltin BRange; VBuiltin BList; VClass CalendarRange;
          VClass ScrapingParameters; VClass TimeDotIrScraper ].
Proof.
  intros Hinit. eexists. split.
  { rewrite notebook_run_launch, run_upto_11.
    unfold cell_2. cbn [drop block]. unfold mbind at 1, Py_bind at 1.
    rewrite (exec_scraper_stmt configured (VRef 2)) by (vm_compute; reflexivity).
    cbv zeta. fold scraper_addr. rewrite Hinit. reflexivity. }
  split; [reflexivity|].
  repeat apply conj; vm_compute; reflexivity.
Qed.

(** X3: if the constructor returns and [scrape()] raises, the notebook ends
    with that exception after exactly one method call: [scraper] is bound to
    the new instance, [results] is not bound, and the heap is the one
    [scrape()] left. *)
Theorem scrape_failure_leaves_results_unbound
    (e : exn) (h h' : list obj) :
  constructor_returns h →
  scraper_scrape scraper_addr [] [] h = (inl e, h') →
  ∃ st, run notebook = (inl e, st)
    ∧ heap st = h'
    ∧ globals st !! "scraper" = Some (VRef 3)
    ∧ globals st !! "results" = None
    ∧ List.filter is_method_call (trace st) = [ECall (VMethod 3 "scrape") [] []]
    ∧ last (trace st) = Some (ECall (VMethod 3 "scrape") [] [])
    ∧ stored_names (trace st) =
        [ "years"; "months"; "days"; "calenadr_type"; "sleep_range";
          "retry_limit_warning"; "halt_limit"; "save_file_path"; "resume";
          "calendar_range"; "scraping_parameters"; "scraper" ].
Proof.
  intros [Hinit (fields & Hobj & Hfld)] Hscrape. eexists. split.
  { rewrite notebook_run_launch, run_upto_11.
    unfold cell_2. cbn [drop block]. unfold mbind at 1, Py_bind at 1.
    rewrite (exec_scraper_stmt configured (VRef 2)) by (vm_compute; reflexivity).
    cbv zeta. fold scraper_addr. rewrite Hinit.
    unfold mbind at 1, Py_bind at 1.
    rewrite (exec_scrape_stmt _ scraper_addr fields);
      [ | apply lookup_insert_eq | exact Hobj | exact Hfld ].
    cbv zeta. cbn [heap globals trace]. rewrite Hscrape. reflexivity. }
  split; [reflexivity|].
  repeat apply conj; vm_compute; reflexivity.
Qed.

Lemma exec_calendar_range_unbound (st : state) :
  globals st !! "CalendarRange" = None →
  ("calendar_range" ::= call (name "CalendarRange") []
      [ "calenadr_type" :- name "calenadr_type";
        "years" :- name "years";
        "months" :- name "months";
        "days" :- name "days" ]) st =
  (inl (NameError "CalendarRange"),
   {| globals := globals st; heap := heap st;
      trace := trace st ++ [ELoad "CalendarRange"] |}).
Proof.
  intros Hc. pose proof builtins_CalendarRange as Hb. py_run. reflexivity.
Qed.

Lemma second_cell_split :
  cell_2 = take 1 cell_2 ++ take 8 (drop 1 cell_2) ++ drop 9 cell_2.
Proof. reflexivity. Qed.

(** X4: run in a kernel state where [CalendarRange] is not bound (the first
    cell was not run) and [list] and [range] are not shadowed, the second
    cell fails with [NameError] on [CalendarRange]; by then it has built the
    year list and bound the nine settings, it has called no constructor and
    no method, and [calendar_range], [scraping_parameters], [scraper] and
    [results] are as they were. *)
Theorem second_cell_needs_imports (st : state) :
  globals st !! "list" = None → globals st !! "range" = None →
  globals st !! "CalendarRange" = None →
  ∃ st' tr, block cell_2 st = (inl (NameError "CalendarRange"), st')
    ∧ heap st' = heap st ++ [OList (VInt <$> [2019; 2020; 2021; 2022; 2023; 2024])]
    ∧ globals st' !! "years" = Some (VRef (List.length (heap st)))
    ∧ globals st' !! "resume" = Some (VBool true)
    ∧ (∀ n, n ∈ ["calendar_range"; "scraping_parameters"; "scraper"; "results"] →
            globals st' !! n = globals st !! n)
    ∧ trace st' = trace st ++ tr
    ∧ stored_names tr =
        [ "years"; "months"; "days"; "calenadr_type"; "sleep_range";
          "retry_limit_warning"; "halt_limit"; "save_file_path"; "resume" ]
    ∧ callees tr = [VBuiltin BRange; VBuiltin BList].
Proof.
  intros Hl Hr Hc. eexists _, _. split.
  { rewrite second_cell_split, block_app.
    unfold cell_2 at 1. cbn [take block]. unfold mbind at 1, Py_bind at 1.
    rewrite exec_years_stmt by assumption.
    unfold mret at 1, Py_ret at 1. cbv beta iota.
    rewrite block_app, exec_settings.
    unfold cell_2. cbn [drop block]. unfold mbind at 1, Py_bind at 1.
    rewrite exec_calendar_range_unbound by solve_lookup.
    reflexivity. }
  cbn [heap globals trace].
  split; [rewrite range_items_years; reflexivity|].
  split; [solve_lookup|].
  split; [solve_lookup|].
  split.
  { intros n Hn.
    repeat (apply elem_of_cons in Hn as [->|Hn];
            [repeat (rewrite lookup_insert_ne by discriminate); reflexivity|]).
    apply elem_of_nil in Hn as []. }
  split; [rewrite <- !app_assoc; reflexivity|].
  split; vm_compute; reflexivity.
Qed.

(** X6: in any kernel state where [TimeDotIrScraper] names the class and
    [scraping_parameters] is bound: if the constructor, given a new object
    appended to the heap and the current value of [scraping_parameters] as
    its only argument, returns and leaves that object a [TimeDotIrScraper]
    instance with no instance attribute named [scrape], and if [scrape()]
    with no argument on that object returns, then the last two statements
    complete, these are the only two calls they make, [scraper] is bound to
    the new object and [results] to the value returned, and no other name
    is bound. *)
Theorem launch_any_state (st : state) (p : value) (h : list obj)
    (fields : gmap string value) (v : value) (h' : list obj) :
  let self := List.length (heap st) in
  globals st !! "TimeDotIrScraper" = Some (VClass TimeDotIrScraper) →
  globals st !! "scraping_parameters" = Some p →
  scraper_init self [p] [] (heap st ++ [OInst TimeDotIrScraper ∅]) = (inr (), h) →
  h !! self = Some (OInst TimeDotIrScraper fields) →
  fields !! "scrape" = None →
  scraper_scrape self [] [] h = (inr v, h') →
  block (drop 11 cell_2) st =
      (inr (),
       {| globals := <["results":=v]> (<["scraper":=VRef self]> (globals st));
          heap := h';
          trace := trace st ++
            [ ELoad "TimeDotIrScraper"; ELoad "scraping_parameters";
              ECall (VClass TimeDotIrScraper) [p] [];
              EStore "scraper" (VRef self);
              ELoad "scraper"; EGetAttr (VRef self) "scrape";
              ECall (VMethod self "scrape") [] [];
              EStore "results" v ] |}).
Proof.
  intros self Hcls Hp Hinit Hobj Hfld Hscrape. subst self.
  unfold cell_2. cbn [drop block]. unfold mbind at 1, Py_bind at 1.
  rewrite (exec_scraper_stmt st p) by assumption.
  cbv zeta. rewrite Hinit.
  unfold mbind at 1, Py_bind at 1.
  rewrite (exec_scrape_stmt _ (List.length (heap st)) fields);
    [ | apply lookup_insert_eq | exact Hobj | exact Hfld ].
  cbv zeta. cbn [heap globals trace]. rewrite Hscrape.
  unfold mret, Py_ret. rewrite <- !app_assoc. reflexivity.
Qed.
End Notebook.

(** ** The assumptions on the facade can be met *)

Lemma idle_constructor_returns :
  constructor_returns idle_init idle_scrape
    (heap (configured idle_init idle_scrape) ++ [OInst TimeDotIrScraper ∅]).
Proof.
  split; [unfold idle_init; reflexivity|].
  exists ∅. split; [vm_compute; reflexivity | reflexivity].
Qed.

Lemma idle_scrape_returns (h : list obj) :
  scrape_returns idle_init idle_scrape h (VRef (List.length h)) (h ++ [OList []]).
Proof. unfold scrape_returns, idle_scrape. reflexivity. Qed.

Lemma idle_init_writes_only_self : writes_only_self idle_init.
Proof. intros self args kwargs h r h' a o [= <- <-] _ Ha. exact Ha. Qed.

Lemma idle_scrape_writes_only_self : writes_only_self idle_scrape.
Proof.
  intros self args kwargs h r h' a o [= <- <-] _ Ha.
  apply lookup_app_l_Some, Ha.
Qed.

(** ** The theorems at the idle scraper *)

Lemma notebook_order_witness :
  let h := heap (configured idle_init idle_scrape) ++ [OInst TimeDotIrScraper ∅] in
  constructor_returns idle_init idle_scrape h
  ∧ scrape_returns idle_init idle_scrape h (VRef 4) (h ++ [OList []])
  ∧ ∃ st, run (notebook idle_init idle_scrape) = (inr (), st)
          ∧ globals st !! "results" = Some (VRef 4).
Proof.
  intros h.
  pose proof idle_constructor_returns as Hc.
  pose proof (idle_scrape_returns h) as Hs.
  destruct (notebook_order idle_init idle_scrape h _ _ Hc Hs)
    as (st & Hrun & _ & Hres).
  split; [exact Hc|]. split; [exact Hs|]. exists st. split; assumption.
Defined.

Lemma notebook_calls_witness :
  let h := heap (configured idle_init idle_scrape) ++ [OInst TimeDotIrScraper ∅] in
  constructor_returns idle_init idle_scrape h
  ∧ scrape_returns idle_init idle_scrape h (VRef 4) (h ++ [OList []])
  ∧ ∃ st, run (notebook idle_init idle_scrape) = (inr (), st)
          ∧ List.length (List.filter is_constructor_call (trace st)) = 3%nat
          ∧ List.length (List.filter is_call (trace st)) = 6%nat.
Proof.
  intros h.
  pose proof idle_constructor_returns as Hc.
  pose proof (idle_scrape_returns h) as Hs.
  destruct (notebook_calls idle_init idle_scrape h _ _ Hc Hs)
    as (_ & _ & _ & st & Hrun & _ & _ & Hcons & _ & Hall).
  split; [exact Hc|]. split; [exact Hs|]. exists st. repeat split; assumption.
Defined.

(** The run does not consist of two constructor calls and one method call:
    it contains three constructor calls and six calls in all. *)
Lemma notebook_constructor_calls_not_two :
  let tr := trace (snd (run (notebook idle_init idle_scrape))) in
  ¬ (List.length (List.filter is_constructor_call tr) = 2%nat
     ∧ List.length (List.filter is_method_call tr) = 1%nat
     ∧ List.length (List.filter is_call tr) = 3%nat).
Proof. vm_compute. intros [H _]. discriminate H. Qed.


Lemma field_of_lookup (h : list obj) (a : addr) (c : class_name)
    (fields : gmap string value) (f : string) :
  h !! a = Some (OInst c fields) → field_of h a f = fields !! f.
Proof. intros H. unfold field_of. rewrite H. reflexivity. Qed.


Lemma scrape_called_once_witness :
  let h := heap (configured idle_init idle_scrape) ++ [OInst TimeDotIrScraper ∅] in
  constructor_returns idle_init idle_scrape h
  ∧ scrape_returns idle_init idle_scrape h (VRef 4) (h ++ [OList []])
  ∧ ∃ st, run (notebook idle_init idle_scrape) = (inr (), st)
          ∧ List.filter is_method_call (trace st) = [ECall (VMethod 3 "scrape") [] []].
Proof.
  intros h.
  pose proof idle_constructor_returns as Hc.
  pose proof (idle_scrape_returns h) as Hs.
  destruct (scrape_called_once idle_init idle_scrape h _ _ Hc Hs)
    as (st & before & Hrun & Hcall & _).
  split; [exact Hc|]. split; [exact Hs|]. exists st. split; assumption.
Defined.

Lemma save_file_path_parameter_witness :
  let h := heap (configured idle_init idle_scrape) ++ [OInst TimeDotIrScraper ∅] in
  constructor_returns idle_init idle_scrape h
  ∧ scrape_returns idle_init idle_scrape h (VRef 4) (h ++ [OList []])
  ∧ ∃ st, run (notebook idle_init idle_scrape) = (inr (), st)
          ∧ occurrences "save_file_path" (loaded_names (trace st)) = 1%nat.
Proof.
  intros h.
  pose proof idle_constructor_returns as Hc.
  pose proof (idle_scrape_returns h) as Hs.
  destruct (save_file_path_parameter idle_init idle_scrape h _ _ Hc Hs)
    as (st & fields & kwargs & Hrun & _ & _ & _ & _ & _ & _ & _ & Hload & _).
  split; [exact Hc|]. split; [exact Hs|]. exists st. split; assumption.
Defined.

Lemma calenadr_type_keyword_witness :
  let kwargs :=
    [ ("calendar_type", VStr "gregorian"); ("years", VRef 0);
      ("months", VStr "whole_year"); ("days", VStr "whole_month") ] in
  "calendar_type" ∈ kwargs.*1
  ∧ ∃ msg, instantiate idle_init CalendarRange [] kwargs initial_state
           = (inl (TypeError msg), initial_state).
Proof.
  intros kwargs.
  assert ("calendar_type" ∈ kwargs.*1) as Hin by (simpl; apply elem_of_cons; left; reflexivity).
  split; [exact Hin|].
  exact (proj2 (calenadr_type_keyword idle_init idle_scrape [] kwargs initial_state) Hin).
Defined.

(** ** The further theorems at concrete kernels *)

Lemma configuration_self_contained_witness :
  let st := snd (run (notebook idle_init idle_scrape)) in
  globals st !! "list" = None ∧ globals st !! "range" = None
  ∧ globals st !! "CalendarRange" = Some (VClass CalendarRange)
  ∧ globals st !! "ScrapingParameters" = Some (VClass ScrapingParameters)
  ∧ ∃ st', block (take 11 (cell_2 idle_init idle_scrape)) st = (inr (), st')
           ∧ globals st' !! "scraping_parameters"
             = Some (VRef (List.length (heap st) + 2)%nat).
Proof.
  intros st.
  assert (globals st !! "list" = None) as Hl by (vm_compute; reflexivity).
  assert (globals st !! "range" = None) as Hr by (vm_compute; reflexivity).
  assert (globals st !! "CalendarRange" = Some (VClass CalendarRange)) as Hc
    by (vm_compute; reflexivity).
  assert (globals st !! "ScrapingParameters" = Some (VClass ScrapingParameters)) as Hs
    by (vm_compute; reflexivity).
  destruct (configuration_self_contained idle_init idle_scrape st Hl Hr Hc Hs)
    as (st' & tr & Hrun & _ & _ & _ & Hsp & _).
  repeat (split; [assumption|]). exists st'. split; assumption.
Defined.

Lemma constructor_failure_stops_notebook_witness :
  let e := Raised "no proxy available" in
  let h := heap (configured (failing_init e) idle_scrape) ++ [OInst TimeDotIrScraper ∅] in
  failing_init e (scraper_addr (failing_init e) idle_scrape) [VRef 2] [] h = (inl e, h)
  ∧ ∃ st, run (notebook (failing_init e) idle_scrape) = (inl e, st)
          ∧ globals st !! "results" = None.
Proof.
  intros e h.
  assert (failing_init e (scraper_addr (failing_init e) idle_scrape) [VRef 2] [] h
          = (inl e, h)) as Hinit by reflexivity.
  destruct (constructor_failure_stops_notebook (failing_init e) idle_scrape e h Hinit)
    as (st & Hrun & _ & _ & Hres & _).
  split; [exact Hinit|]. exists st. split; assumption.
Defined.

Lemma scrape_failure_leaves_results_unbound_witness :
  let e := Raised "halt limit reached" in
  let h := heap (configured idle_init (failing_scrape e)) ++ [OInst TimeDotIrScraper ∅] in
  constructor_returns idle_init (failing_scrape e) h
  ∧ failing_scrape e (scraper_addr idle_init (failing_scrape e)) [] [] h = (inl e, h)
  ∧ ∃ st, run (notebook idle_init (failing_scrape e)) = (inl e, st)
          ∧ globals st !! "scraper" = Some (VRef 3)
          ∧ globals st !! "results" = None.
Proof.
  intros e h.
  assert (constructor_returns idle_init (failing_scrape e) h) as Hc.
  { split; [reflexivity|]. exists ∅.
    split; [vm_compute; reflexivity | reflexivity]. }
  assert (failing_scrape e (scraper_addr idle_init (failing_scrape e)) [] [] h
          = (inl e, h)) as Hs by reflexivity.
  destruct (scrape_failure_leaves_results_unbound idle_init (failing_scrape e)
              e h h Hc Hs) as (st & Hrun & _ & Hsc & Hres & _).
  split; [exact Hc|]. split; [exact Hs|]. exists st. repeat split; assumption.
Defined.

Lemma second_cell_needs_imports_witness :
  globals initial_state !! "list" = None
  ∧ globals initial_state !! "range" = None
  ∧ globals initial_state !! "CalendarRange" = None
  ∧ ∃ st', block (cell_2 idle_init idle_scrape) initial_state
             = (inl (NameError "CalendarRange"), st')
           ∧ globals st' !! "resume" = Some (VBool true).
Proof.
  assert (globals initial_state !! "list" = None) as Hl by reflexivity.
  assert (globals initial_state !! "range" = None) as Hr by reflexivity.
  assert (globals initial_state !! "CalendarRange" = None) as Hc by reflexivity.
  destruct (second_cell_needs_imports idle_init idle_scrape initial_state Hl Hr Hc)
    as (st' & tr & Hrun & _ & _ & Hres & _).
  repeat (split; [assumption|]). exists st'. split; assumption.
Defined.

Lemma launch_any_state_witness :
  let st := snd (run (notebook idle_init idle_scrape)) in
  let self := List.length (heap st) in
  let h := heap st ++ [OInst TimeDotIrScraper ∅] in
  let v := VRef (List.length h) in
  let h' := h ++ [OList []] in
  globals st !! "TimeDotIrScraper" = Some (VClass TimeDotIrScraper)
  ∧ globals st !! "scraping_parameters" = Some (VRef 2)
  ∧ idle_init self [VRef 2] [] h = (inr (), h)
  ∧ h !! self = Some (OInst TimeDotIrScraper ∅)
  ∧ (∅ : gmap string value) !! "scrape" = None
  ∧ idle_scrape self [] [] h = (inr v, h')
  ∧ fst (block (drop 11 (cell_2 idle_init idle_scrape)) st) = inr ().
Proof.
  intros st self h v h'.
  assert (globals st !! "TimeDotIrScraper" = Some (VClass TimeDotIrScraper)) as Hcls
    by (vm_compute; reflexivity).
  assert (globals st !! "scraping_parameters" = Some (VRef 2)) as Hp
    by (vm_compute; reflexivity).
  assert (idle_init self [VRef 2] [] h = (inr (), h)) as Hinit by reflexivity.
  assert (h !! self = Some (OInst TimeDotIrScraper ∅)) as Hobj
    by (vm_compute; reflexivity).
  assert ((∅ : gmap string value) !! "scrape" = None) as Hfld by reflexivity.
  assert (idle_scrape self [] [] h = (inr v, h')) as Hscrape by reflexivity.
  pose proof (launch_any_state idle_init idle_scrape st (VRef 2) h ∅ v h'
                Hcls Hp Hinit Hobj Hfld Hscrape) as Hrun.
  repeat (split; [assumption|]).
  rewrite Hrun. reflexivity.
Defined.
